(** * Keylogger: the key-event translation of [Main.cpp]

    A shallow embedding of [translate], of the hook [procedure] and of the
    entry point [wWinMain] of [src/Keylogger/src/Main.cpp], followed by the
    properties its specification states about them and by further
    properties of the code.

    Modelling choices

    - [char] is [ascii], [std::string] is [string], [bool] is [bool];
      [code], [wParam] and the [DWORD] field [vkCode] are integers in [Z].
      No arithmetic is done on them, they are only compared with case
      labels, so no wrap-around has to be written out.
    - The function-local [static] flags of [procedure] are the record
      [Statics], passed in and returned.
    - The text handed to [WriteConsoleA] at the end of [procedure] is the
      second component of the result.  The console handle and the value of
      [CallNextHookEx] belong to the operating system and are not modelled.
    - The [VK_*], [WM_*] and [HC_ACTION] macros come from the platform
      header [winuser.h]; they are abbreviations for the values that header
      gives them, so that they can stand as case labels. *)

From Stdlib Require Import ZArith String Ascii Bool List Lia.
Import ListNotations.

Local Open Scope Z_scope.
Local Open Scope string_scope.

(** ** Platform macros ([winuser.h]) *)

Abbreviation HC_ACTION := 0%Z.

Abbreviation WM_KEYDOWN := 0x0100%Z.
Abbreviation WM_KEYUP := 0x0101%Z.
Abbreviation WM_SYSKEYDOWN := 0x0104%Z.
Abbreviation WM_SYSKEYUP := 0x0105%Z.

Abbreviation VK_BACK := 0x08%Z.
Abbreviation VK_TAB := 0x09%Z.
Abbreviation VK_RETURN := 0x0D%Z.
Abbreviation VK_CAPITAL := 0x14%Z.
Abbreviation VK_ESCAPE := 0x1B%Z.
Abbreviation VK_SPACE := 0x20%Z.
Abbreviation VK_PRIOR := 0x21%Z.
Abbreviation VK_NEXT := 0x22%Z.
Abbreviation VK_END := 0x23%Z.
Abbreviation VK_HOME := 0x24%Z.
Abbreviation VK_LEFT := 0x25%Z.
Abbreviation VK_UP := 0x26%Z.
Abbreviation VK_RIGHT := 0x27%Z.
Abbreviation VK_DOWN := 0x28%Z.
Abbreviation VK_SNAPSHOT := 0x2C%Z.
Abbreviation VK_INSERT := 0x2D%Z.
Abbreviation VK_DELETE := 0x2E%Z.
Abbreviation VK_LWIN := 0x5B%Z.
Abbreviation VK_RWIN := 0x5C%Z.
Abbreviation VK_LSHIFT := 0xA0%Z.
Abbreviation VK_RSHIFT := 0xA1%Z.
Abbreviation VK_LCONTROL := 0xA2%Z.
Abbreviation VK_RCONTROL := 0xA3%Z.
Abbreviation VK_LMENU := 0xA4%Z.
Abbreviation VK_RMENU := 0xA5%Z.
Abbreviation VK_OEM_1 := 0xBA%Z.
Abbreviation VK_OEM_PLUS := 0xBB%Z.
Abbreviation VK_OEM_COMMA := 0xBC%Z.
Abbreviation VK_OEM_MINUS := 0xBD%Z.
Abbreviation VK_OEM_PERIOD := 0xBE%Z.
Abbreviation VK_OEM_2 := 0xBF%Z.
Abbreviation VK_OEM_3 := 0xC0%Z.
Abbreviation VK_OEM_4 := 0xDB%Z.
Abbreviation VK_OEM_5 := 0xDC%Z.
Abbreviation VK_OEM_6 := 0xDD%Z.
Abbreviation VK_OEM_7 := 0xDE%Z.

(** Characters that cannot be written between quotes. *)
Definition dquote : ascii := "034"%char.
Definition CR : ascii := "013"%char.
Definition LF : ascii := "010"%char.

(** The escape sequence [\r\n]. *)
Definition CRLF : string := String CR (String LF "").

(** [text += c] for a single [char]. *)
Definition push_back (text : string) (c : ascii) : string :=
  text ++ String c "".

(** ** [translate] (Main.cpp, lines 28-51) *)

Definition translate (primary secondary : ascii)
    (win shift caps ctrl alt : bool) : string :=
  let text := "" in
  let '(caps, text) :=
    if win || ctrl || alt then (false, text ++ "<") else (caps, text) in
  let text := if win then text ++ "WIN + " else text in
  let text := if ctrl then text ++ "CTRL + " else text in
  let text := if alt then text ++ "ALT + " else text in
  let text :=
    if xorb shift caps then push_back text secondary
    else push_back text primary in
  let text := if win || ctrl || alt then text ++ ">" else text in
  text.

(** ** The state and the argument of the hook *)

(** The [static] flags of [procedure] (lines 67-71). *)
Record Statics : Set := mkStatics {
  win : bool;
  shift : bool;
  caps : bool;
  ctrl : bool;
  alt : bool
}.

(** Their initialisers: every flag starts [false]. *)
Definition initial : Statics := mkStatics false false false false false.

(** [KBDLLHOOKSTRUCT], the structure [lParam] points to. *)
Record KBDLLHOOKSTRUCT : Set := mkKey {
  vkCode : Z;
  scanCode : Z;
  flags : Z;
  time : Z;
  dwExtraInfo : Z
}.

(** ** [procedure] (Main.cpp, lines 64-367) *)

(** The inner [switch (key->vkCode)] of the key-down branch, lines 81-337.
    Every arm ends in [break], so the arms are independent. *)
Definition procedure_keydown (vk : Z) (s : Statics) (log : string)
    : Statics * string :=
  let win := win s in
  let shift := shift s in
  let caps := caps s in
  let ctrl := ctrl s in
  let alt := alt s in
  match vk with
  | VK_BACK => (s, log ++ "<BACKSPACE>")
  | VK_TAB => (s, log ++ "<TAB>")
  | VK_RETURN => (s, log ++ ("<RETURN>" ++ CRLF))
  | VK_CAPITAL => (mkStatics win shift (negb caps) ctrl alt, log)
  | VK_ESCAPE => (s, log ++ "<ESC>")
  | VK_SPACE => (s, log ++ " ")
  | VK_PRIOR => (s, log ++ "<PGDN>")
  | VK_NEXT => (s, log ++ "<PGUP>")
  | VK_END => (s, log ++ "<END>")
  | VK_HOME => (s, log ++ "<HOME>")
  | VK_LEFT => (s, log ++ "<LEFT>")
  | VK_UP => (s, log ++ "<UP>")
  | VK_RIGHT => (s, log ++ "<RIGHT>")
  | VK_DOWN => (s, log ++ "<DOWN>")
  | VK_SNAPSHOT => (s, log ++ "<PRTSC>")
  | VK_INSERT => (s, log ++ "<INS>")
  | VK_DELETE => (s, log ++ "<DEL>")
  | 48 => (s, log ++ translate "0" ")" win shift false ctrl alt)
  | 49 => (s, log ++ translate "1" "!" win shift false ctrl alt)
  | 50 => (s, log ++ translate "2" "@" win shift false ctrl alt)
  | 51 => (s, log ++ translate "3" "#" win shift false ctrl alt)
  | 52 => (s, log ++ translate "4" "$" win shift false ctrl alt)
  | 53 => (s, log ++ translate "5" "%" win shift false ctrl alt)
  | 54 => (s, log ++ translate "6" "^" win shift false ctrl alt)
  | 55 => (s, log ++ translate "7" "&" win shift false ctrl alt)
  | 56 => (s, log ++ translate "8" "*" win shift false ctrl alt)
  | 57 => (s, log ++ translate "9" "(" win shift false ctrl alt)
  | 65 => (s, log ++ translate "a" "A" win shift caps ctrl alt)
  | 66 => (s, log ++ translate "b" "B" win shift caps ctrl alt)
  | 67 => (s, log ++ translate "c" "C" win shift caps ctrl alt)
  | 68 => (s, log ++ translate "d" "D" win shift caps ctrl alt)
  | 69 => (s, log ++ translate "e" "E" win shift caps ctrl alt)
  | 70 => (s, log ++ translate "f" "F" win shift caps ctrl alt)
  | 71 => (s, log ++ translate "g" "G" win shift caps ctrl alt)
  | 72 => (s, log ++ translate "h" "H" win shift caps ctrl alt)
  | 73 => (s, log ++ translate "i" "I" win shift caps ctrl alt)
  | 74 => (s, log ++ translate "j" "J" win shift caps ctrl alt)
  | 75 => (s, log ++ translate "k" "K" win shift caps ctrl alt)
  | 76 => (s, log ++ translate "l" "L" win shift caps ctrl alt)
  | 77 => (s, log ++ translate "m" "M" win shift caps ctrl alt)
  | 78 => (s, log ++ translate "n" "N" win shift caps ctrl alt)
  | 79 => (s, log ++ translate "o" "O" win shift caps ctrl alt)
  | 80 => (s, log ++ translate "p" "P" win shift caps ctrl alt)
  | 81 => (s, log ++ translate "q" "Q" win shift caps ctrl alt)
  | 82 => (s, log ++ translate "r" "R" win shift caps ctrl alt)
  | 83 => (s, log ++ translate "s" "S" win shift caps ctrl alt)
  | 84 => (s, log ++ translate "t" "T" win shift caps ctrl alt)
  | 85 => (s, log ++ translate "u" "U" win shift caps ctrl alt)
  | 86 => (s, log ++ translate "v" "V" win shift caps ctrl alt)
  | 87 => (s, log ++ translate "w" "W" win shift caps ctrl alt)
  | 88 => (s, log ++ translate "x" "X" win shift caps ctrl alt)
  | 89 => (s, log ++ translate "y" "Y" win shift caps ctrl alt)
  | 90 => (s, log ++ translate "z" "Z" win shift caps ctrl alt)
  | VK_LWIN | VK_RWIN => (mkStatics true shift caps ctrl alt, log)
  | VK_LSHIFT | VK_RSHIFT => (mkStatics win true caps ctrl alt, log)
  | VK_LCONTROL | VK_RCONTROL => (mkStatics win shift caps true alt, log)
  | VK_LMENU | VK_RMENU => (mkStatics win shift caps ctrl true, log)
  | VK_OEM_1 => (s, log ++ translate ";" ":" win shift caps ctrl alt)
  | VK_OEM_PLUS => (s, log ++ translate "=" "+" win shift caps ctrl alt)
  | VK_OEM_COMMA => (s, log ++ translate "," "<" win shift caps ctrl alt)
  | VK_OEM_MINUS => (s, log ++ translate "-" "_" win shift caps ctrl alt)
  | VK_OEM_PERIOD => (s, log ++ translate "." ">" win shift caps ctrl alt)
  | VK_OEM_2 => (s, log ++ translate "/" "?" win shift caps ctrl alt)
  | VK_OEM_3 => (s, log ++ translate "`" "~" win shift caps ctrl alt)
  | VK_OEM_4 => (s, log ++ translate "[" "{" win shift caps ctrl alt)
  | VK_OEM_5 => (s, log ++ translate "\" "|" win shift caps ctrl alt)
  | VK_OEM_6 => (s, log ++ translate "]" "}" win shift caps ctrl alt)
  | VK_OEM_7 => (s, log ++ translate "'" dquote win shift caps ctrl alt)
  | _ => (s, log)
  end.

(** The inner [switch (key->vkCode)] of the key-up branch, lines 342-359. *)
Definition procedure_keyup (vk : Z) (s : Statics) (log : string)
    : Statics * string :=
  let win := win s in
  let shift := shift s in
  let caps := caps s in
  let ctrl := ctrl s in
  let alt := alt s in
  match vk with
  | VK_LWIN | VK_RWIN => (mkStatics false shift caps ctrl alt, log)
  | VK_LSHIFT | VK_RSHIFT => (mkStatics win false caps ctrl alt, log)
  | VK_LCONTROL | VK_RCONTROL => (mkStatics win shift caps false alt, log)
  | VK_LMENU | VK_RMENU => (mkStatics win shift caps ctrl false, log)
  | _ => (s, log)
  end.

(** One call of the hook: the flags after the call and the text written
    to the console. *)
Definition procedure (code : Z) (wParam : Z) (key : KBDLLHOOKSTRUCT)
    (s : Statics) : Statics * string :=
  let log := "" in
  match code with
  | HC_ACTION =>
      match wParam with
      | WM_KEYDOWN | WM_SYSKEYDOWN => procedure_keydown (vkCode key) s log
      | WM_KEYUP | WM_SYSKEYUP => procedure_keyup (vkCode key) s log
      | _ => (s, log)
      end
  | _ => (s, log)
  end.

(** ** The hook called on a stream of events *)

Record HookCall : Set := mkCall {
  call_code : Z;
  call_wParam : Z;
  call_key : KBDLLHOOKSTRUCT
}.

(** The system calls [procedure] once per event, in order; the flags
    persist between calls and the console accumulates what is written. *)
Fixpoint deliver (calls : list HookCall) (s : Statics) : Statics * string :=
  match calls with
  | [] => (s, "")
  | c :: rest =>
      let '(s1, out1) := procedure (call_code c) (call_wParam c) (call_key c) s in
      let '(s2, out2) := deliver rest s1 in
      (s2, out1 ++ out2)
  end.

(** A key structure carrying the code [vk]; the other fields are not read. *)
Definition key_of (vk : Z) : KBDLLHOOKSTRUCT := mkKey vk 0 0 0 0.

Definition key_down (vk : Z) : HookCall := mkCall HC_ACTION WM_KEYDOWN (key_of vk).
Definition key_up (vk : Z) : HookCall := mkCall HC_ACTION WM_KEYUP (key_of vk).

(** ** Key classes

    The vocabulary of the specification, read off the case labels of
    [procedure]: the character table (the arms that call [translate], with
    the two characters they pass), the literal-label table (the arms that
    append a fixed string) and the modifier keys (the arms that assign a
    flag). *)

Definition key_chars (vk : Z) : option (ascii * ascii) :=
  match vk with
  | 48 => Some ("0", ")") | 49 => Some ("1", "!") | 50 => Some ("2", "@")
  | 51 => Some ("3", "#") | 52 => Some ("4", "$") | 53 => Some ("5", "%")
  | 54 => Some ("6", "^") | 55 => Some ("7", "&") | 56 => Some ("8", "*")
  | 57 => Some ("9", "(")
  | 65 => Some ("a", "A") | 66 => Some ("b", "B") | 67 => Some ("c", "C")
  | 68 => Some ("d", "D") | 69 => Some ("e", "E") | 70 => Some ("f", "F")
  | 71 => Some ("g", "G") | 72 => Some ("h", "H") | 73 => Some ("i", "I")
  | 74 => Some ("j", "J") | 75 => Some ("k", "K") | 76 => Some ("l", "L")
  | 77 => Some ("m", "M") | 78 => Some ("n", "N") | 79 => Some ("o", "O")
  | 80 => Some ("p", "P") | 81 => Some ("q", "Q") | 82 => Some ("r", "R")
  | 83 => Some ("s", "S") | 84 => Some ("t", "T") | 85 => Some ("u", "U")
  | 86 => Some ("v", "V") | 87 => Some ("w", "W") | 88 => Some ("x", "X")
  | 89 => Some ("y", "Y") | 90 => Some ("z", "Z")
  | VK_OEM_1 => Some (";", ":")
  | VK_OEM_PLUS => Some ("=", "+")
  | VK_OEM_COMMA => Some (",", "<")
  | VK_OEM_MINUS => Some ("-", "_")
  | VK_OEM_PERIOD => Some (".", ">")
  | VK_OEM_2 => Some ("/", "?")
  | VK_OEM_3 => Some ("`", "~")
  | VK_OEM_4 => Some ("[", "{")
  | VK_OEM_5 => Some ("\", "|")
  | VK_OEM_6 => Some ("]", "}")
  | VK_OEM_7 => Some ("'", dquote)
  | _ => None
  end%char.

(** The digit keys, codes 48 to 57: the arms that pass the constant
    [false] for [caps]. *)
Definition is_digit_key (vk : Z) : bool :=
  match vk with
  | 48 | 49 | 50 | 51 | 52 | 53 | 54 | 55 | 56 | 57 => true
  | _ => false
  end.

(** The value a character-table arm passes to [translate] for [caps]. *)
Definition caps_passed (vk : Z) (s : Statics) : bool :=
  if is_digit_key vk then false else caps s.

Definition literal_label (vk : Z) : option string :=
  match vk with
  | VK_BACK => Some "<BACKSPACE>"
  | VK_TAB => Some "<TAB>"
  | VK_RETURN => Some ("<RETURN>" ++ CRLF)
  | VK_ESCAPE => Some "<ESC>"
  | VK_SPACE => Some " "
  | VK_PRIOR => Some "<PGDN>"
  | VK_NEXT => Some "<PGUP>"
  | VK_END => Some "<END>"
  | VK_HOME => Some "<HOME>"
  | VK_LEFT => Some "<LEFT>"
  | VK_UP => Some "<UP>"
  | VK_RIGHT => Some "<RIGHT>"
  | VK_DOWN => Some "<DOWN>"
  | VK_SNAPSHOT => Some "<PRTSC>"
  | VK_INSERT => Some "<INS>"
  | VK_DELETE => Some "<DEL>"
  | _ => None
  end.

Definition is_modifier (vk : Z) : bool :=
  match vk with
  | VK_CAPITAL
  | VK_LWIN | VK_RWIN
  | VK_LSHIFT | VK_RSHIFT
  | VK_LCONTROL | VK_RCONTROL
  | VK_LMENU | VK_RMENU => true
  | _ => false
  end.

(** The two messages of the key-down branch and the two of the key-up
    branch. *)
Definition is_keydown (wParam : Z) : bool :=
  match wParam with
  | WM_KEYDOWN | WM_SYSKEYDOWN => true
  | _ => false
  end.

Definition is_keyup (wParam : Z) : bool :=
  match wParam with
  | WM_KEYUP | WM_SYSKEYUP => true
  | _ => false
  end.

(** "A decorating modifier is active". *)
Definition decorated (s : Statics) : bool := win s || ctrl s || alt s.

(** The prefix tokens [translate] emits between the opening bracket and the
    character. *)
Definition prefix_tokens (win ctrl alt : bool) : string :=
  (if win then "WIN + " else "") ++
  (if ctrl then "CTRL + " else "") ++
  (if alt then "ALT + " else "").

(** The four held modifiers, the two keys of each and its flag. *)
Inductive Held : Set := Meta | Shift | Control | Alt.

Definition left_key (m : Held) : Z :=
  match m with
  | Meta => VK_LWIN | Shift => VK_LSHIFT
  | Control => VK_LCONTROL | Alt => VK_LMENU
  end.

Definition right_key (m : Held) : Z :=
  match m with
  | Meta => VK_RWIN | Shift => VK_RSHIFT
  | Control => VK_RCONTROL | Alt => VK_RMENU
  end.

Definition flag (m : Held) (s : Statics) : bool :=
  match m with
  | Meta => win s | Shift => shift s | Control => ctrl s | Alt => alt s
  end.

(** The assignment [flag = b]. *)
Definition assign (m : Held) (b : bool) (s : Statics) : Statics :=
  match m with
  | Meta => mkStatics b (shift s) (caps s) (ctrl s) (alt s)
  | Shift => mkStatics (win s) b (caps s) (ctrl s) (alt s)
  | Control => mkStatics (win s) (shift s) (caps s) b (alt s)
  | Alt => mkStatics (win s) (shift s) (caps s) (ctrl s) b
  end.

(** [vk] is the left or the right key of [m]. *)
Definition is_key (m : Held) (vk : Z) : bool :=
  Z.eqb vk (left_key m) || Z.eqb vk (right_key m).

(** What a call is for the held modifier [m]: a press ([Some true]) when
    it is a key-down of one of the two keys of [m], a release
    ([Some false]) when it is a key-up of one of them, nothing otherwise. *)
Definition held_event (m : Held) (c : HookCall) : option bool :=
  if Z.eqb (call_code c) HC_ACTION && is_key m (vkCode (call_key c)) then
    if is_keydown (call_wParam c) then Some true
    else if is_keyup (call_wParam c) then Some false
    else None
  else None.

(** The value of a held flag after a call, from its value before. *)
Definition follow (m : Held) (b : bool) (c : HookCall) : bool :=
  match held_event m c with
  | Some pressed => pressed
  | None => b
  end.

(** The call is a key-down of the caps-lock key. *)
Definition is_caps_down (c : HookCall) : bool :=
  Z.eqb (call_code c) HC_ACTION && is_keydown (call_wParam c) &&
  Z.eqb (vkCode (call_key c)) VK_CAPITAL.

(** The call carries a modifier key. *)
Definition on_modifier (c : HookCall) : bool :=
  is_modifier (vkCode (call_key c)).

(** One call of the hook, from the record of its arguments. *)
Definition call (c : HookCall) (s : Statics) : Statics * string :=
  procedure (call_code c) (call_wParam c) (call_key c) s.

(** The codes of the character table, in the order of the arms. *)
Definition char_keys : list Z :=
  [48; 49; 50; 51; 52; 53; 54; 55; 56; 57;
   65; 66; 67; 68; 69; 70; 71; 72; 73; 74; 75; 76; 77;
   78; 79; 80; 81; 82; 83; 84; 85; 86; 87; 88; 89; 90;
   VK_OEM_1; VK_OEM_PLUS; VK_OEM_COMMA; VK_OEM_MINUS; VK_OEM_PERIOD;
   VK_OEM_2; VK_OEM_3; VK_OEM_4; VK_OEM_5; VK_OEM_6; VK_OEM_7].

(** Reading a character back: the first key of the table that has [c] as
    its primary ([false]) or secondary ([true]) character. *)
Definition char_key (c : ascii) : option (Z * bool) :=
  fold_right
    (fun vk found =>
       match key_chars vk with
       | Some (p, q) =>
           if Ascii.eqb c p then Some (vk, false)
           else if Ascii.eqb c q then Some (vk, true)
           else found
       | None => found
       end)
    None char_keys.

(** The characters a console shows as themselves, and the two of a line
    break. *)
Definition printable (c : ascii) : bool :=
  ((32 <=? nat_of_ascii c) && (nat_of_ascii c <=? 126))%nat ||
  Ascii.eqb c CR || Ascii.eqb c LF.

Fixpoint all_chars (f : ascii -> bool) (t : string) : bool :=
  match t with
  | EmptyString => true
  | String c rest => f c && all_chars f rest
  end.

(** The characters with ASCII codes 32 to 126. *)
Definition typeable (c : ascii) : bool :=
  ((32 <=? nat_of_ascii c) && (nat_of_ascii c <=? 126))%nat.

(** Events that type one character on released modifiers: the key alone
    for a primary character, the key between a press and a release of left
    shift for a secondary character, the space bar otherwise. *)
Definition type_char (c : ascii) : list HookCall :=
  match char_key c with
  | Some (vk, false) => [key_down vk; key_up vk]
  | Some (vk, true) =>
      [key_down VK_LSHIFT; key_down vk; key_up vk; key_up VK_LSHIFT]
  | None => [key_down VK_SPACE; key_up VK_SPACE]
  end.

Fixpoint type_text (t : string) : list HookCall :=
  match t with
  | EmptyString => []
  | String c rest => (type_char c ++ type_text rest)%list
  end.

(** The call is for left shift, the space bar or a character-table key. *)
Definition is_typing (c : HookCall) : bool :=
  Z.eqb (vkCode (call_key c)) VK_LSHIFT ||
  Z.eqb (vkCode (call_key c)) VK_SPACE ||
  match key_chars (vkCode (call_key c)) with
  | Some _ => true
  | None => false
  end.

(** ** [wWinMain] (Main.cpp, lines 383-397)

    The entry point only calls the system.  It is modelled by the list of
    the calls it makes, in order, and the value it returns.  What the
    system answers is an input: [hook], the handle [SetWindowsHookExW]
    returns, and [answers], which gives for the n-th call of [GetMessageW]
    (counted from 0) its return value and the message it stores in [msg].
    The loop may run for ever, so the model takes a bound on the number of
    calls of [GetMessageW] and returns [None] when the bound is reached. *)

Abbreviation WH_KEYBOARD_LL := 13%Z.
Abbreviation EXIT_SUCCESS := 0%Z.

(** [MSG], the structure [GetMessageW] fills. *)
Record MSG : Set := mkMSG {
  msg_hwnd : Z;
  msg_message : Z;
  msg_wParam : Z;
  msg_lParam : Z;
  msg_time : Z;
  msg_pt_x : Z;
  msg_pt_y : Z
}.

Inductive SysCall : Set :=
  | AllocConsole
  | SetWindowsHookExW (idHook hmod dwThreadId : Z)
  | GetMessageW (hWnd wMsgFilterMin wMsgFilterMax : Z)
  | TranslateMessage (msg : MSG)
  | DispatchMessageW (msg : MSG)
  | UnhookWindowsHookEx (hhk : Z)
  | FreeConsole.

(** The [while (!GetMessageW(...))] loop, lines 389-392, from the n-th
    call of [GetMessageW] on. *)
Fixpoint message_loop (answers : nat -> Z * MSG) (bound n : nat)
    : option (list SysCall) :=
  match bound with
  | O => None
  | S bound' =>
      let '(result, msg) := answers n in
      let calls := [GetMessageW 0 WM_KEYDOWN WM_SYSKEYUP] in
      if Z.eqb result 0 then
        match message_loop answers bound' (S n) with
        | Some rest =>
            Some (calls ++ [TranslateMessage msg; DispatchMessageW msg]
                        ++ rest)%list
        | None => None
        end
      else Some calls
  end.

Definition wWinMain (hook : Z) (answers : nat -> Z * MSG) (bound : nat)
    : option (list SysCall * Z) :=
  match message_loop answers bound 0 with
  | Some loop =>
      Some (([AllocConsole; SetWindowsHookExW WH_KEYBOARD_LL 0 0] ++ loop ++
             [UnhookWindowsHookEx hook; FreeConsole])%list,
            EXIT_SUCCESS)
  | None => None
  end.

(** The calls of one turn of the loop on the i-th message. *)
Definition loop_turn (answers : nat -> Z * MSG) (i : nat) : list SysCall :=
  [GetMessageW 0 WM_KEYDOWN WM_SYSKEYUP;
   TranslateMessage (snd (answers i));
   DispatchMessageW (snd (answers i))].

(** * Properties *)

(** ** Case analysis on a key code

    A [switch] over literals is a decision tree on the binary digits of
    the code.  Every label used here is below 512, so nine levels of case
    analysis settle every [match] on a code or a message. *)

Ltac split_pos :=
  do 9 (try match goal with
            | b : positive |- _ => destruct b as [ ? | ? | ]
            end).

Ltac split_code vk :=
  destruct vk as [ | ? | ? ]; [ | split_pos | ].

(** ** [translate] *)

Lemma translate_plain primary secondary shift caps :
  translate primary secondary false shift caps false false =
  String (if xorb shift caps then secondary else primary) "".
Proof. unfold translate, push_back. cbn. now destruct (xorb shift caps). Qed.

Lemma append_assoc (a b c : string) : (a ++ b) ++ c = a ++ (b ++ c).
Proof. induction a as [ | x a IH ]; cbn; [ reflexivity | now rewrite IH ]. Qed.

Lemma translate_decorated primary secondary win shift caps ctrl alt :
  win || ctrl || alt = true ->
  translate primary secondary win shift caps ctrl alt =
  "<" ++ prefix_tokens win ctrl alt ++
  String (if shift then secondary else primary) "" ++ ">".
Proof.
  intros D. unfold translate, push_back, prefix_tokens. rewrite D.
  destruct win, ctrl, alt, shift; try discriminate D; reflexivity.
Qed.

(** ** The arms of [procedure] *)

Lemma keydown_char vk p q s log :
  key_chars vk = Some (p, q) ->
  procedure_keydown vk s log =
  (s, log ++ translate p q (win s) (shift s) (caps_passed vk s) (ctrl s) (alt s)).
Proof.
  intros H. split_code vk; vm_compute in H; try discriminate H;
    injection H as <- <-; reflexivity.
Qed.

Lemma keydown_literal vk l s log :
  literal_label vk = Some l ->
  procedure_keydown vk s log = (s, log ++ l).
Proof.
  intros H. split_code vk; vm_compute in H; try discriminate H;
    injection H as <-; reflexivity.
Qed.

Lemma keydown_unmapped vk s log :
  key_chars vk = None -> literal_label vk = None -> is_modifier vk = false ->
  procedure_keydown vk s log = (s, log).
Proof.
  intros C L M. split_code vk; try reflexivity;
    vm_compute in C, L, M; discriminate.
Qed.

Lemma keydown_modifier_silent vk s log :
  is_modifier vk = true -> snd (procedure_keydown vk s log) = log.
Proof.
  intros M. split_code vk; vm_compute in M; try discriminate M; reflexivity.
Qed.

Lemma keyup_silent vk s log : snd (procedure_keyup vk s log) = log.
Proof. split_code vk; reflexivity. Qed.

Lemma keyup_non_modifier vk s log :
  is_modifier vk = false -> procedure_keyup vk s log = (s, log).
Proof.
  intros M. split_code vk; try reflexivity; vm_compute in M; discriminate M.
Qed.

(** The classes are disjoint: a code has one resolution path. *)
Lemma key_classes_disjoint vk :
  (key_chars vk <> None -> literal_label vk = None /\ is_modifier vk = false) /\
  (literal_label vk <> None -> is_modifier vk = false).
Proof.
  split_code vk; vm_compute; (split; [ intros H | intros H ]);
    repeat split; try reflexivity; exfalso; apply H; reflexivity.
Qed.

(** The two characters of a table entry differ. *)
Lemma key_chars_distinct vk p q : key_chars vk = Some (p, q) -> p <> q.
Proof.
  intros H. split_code vk; vm_compute in H; try discriminate H;
    injection H as <- <-; discriminate.
Qed.

(** ** The outer switches of [procedure] *)

Lemma procedure_keydown_branch w key s :
  is_keydown w = true ->
  procedure HC_ACTION w key s = procedure_keydown (vkCode key) s "".
Proof.
  intros W. unfold procedure.
  split_code w; vm_compute in W; try discriminate W; reflexivity.
Qed.

Lemma procedure_keyup_branch w key s :
  is_keyup w = true ->
  procedure HC_ACTION w key s = procedure_keyup (vkCode key) s "".
Proof.
  intros W. unfold procedure.
  split_code w; vm_compute in W; try discriminate W; reflexivity.
Qed.

Lemma procedure_other_message code w key s :
  is_keydown w = false -> is_keyup w = false ->
  procedure code w key s = (s, "").
Proof.
  intros D U. unfold procedure. destruct code; try reflexivity.
  split_code w; try reflexivity; vm_compute in D, U; discriminate.
Qed.

Lemma procedure_no_action code w key s :
  code <> HC_ACTION -> procedure code w key s = (s, "").
Proof. intros C. unfold procedure. destruct code; congruence. Qed.

(** Whatever the code and the message, [procedure] runs one of the two
    inner switches or does nothing. *)
Lemma procedure_cases code w key s :
  procedure code w key s = procedure_keydown (vkCode key) s "" \/
  procedure code w key s = procedure_keyup (vkCode key) s "" \/
  procedure code w key s = (s, "").
Proof.
  destruct (Z.eq_dec code HC_ACTION) as [-> | C].
  - destruct (is_keydown w) eqn:D.
    + left. now apply procedure_keydown_branch.
    + destruct (is_keyup w) eqn:U.
      * right; left. now apply procedure_keyup_branch.
      * right; right. now apply procedure_other_message.
  - right; right. now apply procedure_no_action.
Qed.

(** ** The end-to-end scenarios of the specification *)

Example scenario_shift_a :
  snd (deliver [key_down VK_LSHIFT; key_down 65] initial) = "A".
Proof. reflexivity. Qed.

Example scenario_caps_a :
  snd (deliver [key_down VK_CAPITAL; key_up VK_CAPITAL; key_down 65] initial)
  = "A".
Proof. reflexivity. Qed.

Example scenario_caps_shift_a :
  snd (deliver [key_down VK_CAPITAL; key_up VK_CAPITAL; key_down VK_LSHIFT;
                key_down 65] initial) = "a".
Proof. reflexivity. Qed.

Example scenario_control_c :
  snd (deliver [key_down VK_LCONTROL; key_down 67] initial) = "<CTRL + c>".
Proof. reflexivity. Qed.

Example scenario_digit_one :
  snd (deliver [key_down 49] initial) = "1" /\
  snd (deliver [key_down VK_LSHIFT; key_down 49] initial) = "!".
Proof. split; reflexivity. Qed.

(** * The claims *)

(** ** Case selection *)

(** What the hook writes for a character-table key pressed while no
    decorating modifier is active: one character, chosen by [shift] and by
    the caps value the arm passes. *)
Lemma keydown_char_plain w key p q s :
  key_chars (vkCode key) = Some (p, q) ->
  decorated s = false ->
  is_keydown w = true ->
  procedure HC_ACTION w key s =
  (s, String (if xorb (shift s) (caps_passed (vkCode key) s) then q else p) "").
Proof.
  intros H D W. rewrite (procedure_keydown_branch _ _ _ W).
  rewrite (keydown_char _ _ _ _ _ H). cbn [append].
  unfold decorated in D.
  destruct (win s), (ctrl s), (alt s); try discriminate D.
  now rewrite translate_plain.
Qed.

(** C1, as stated, fails on a digit key event: with no decorating modifier
    active, shift not held and caps-lock toggled on, the two flags differ,
    yet the key [0] (code 48) writes its primary character ["0"] and not
    its secondary character [")"]. *)
Lemma digit_key_breaks_xor_case_law :
  let s := mkStatics false false true false false in
  key_chars 48 = Some ("0"%char, ")"%char) /\
  decorated s = false /\
  shift s <> caps s /\
  procedure HC_ACTION WM_KEYDOWN (key_of 48) s = (s, "0") /\
  procedure HC_ACTION WM_KEYDOWN (key_of 48) s <> (s, ")").
Proof. cbv zeta. repeat split; try reflexivity; discriminate. Qed.

(** C1 (amended).  For every letter or punctuation key event with no
    decorating modifier active, and for each of the four combinations of
    shift and caps-lock, the hook writes the secondary character if and
    only if [shift <> caps], and the primary character if and only if
    [shift = caps].  For a digit key event caps-lock plays no part: the
    hook writes the secondary character if and only if shift is held. *)
Theorem xor_case_law_on_key_events w key p q s :
  key_chars (vkCode key) = Some (p, q) ->
  decorated s = false ->
  is_keydown w = true ->
  (is_digit_key (vkCode key) = false ->
     (procedure HC_ACTION w key s = (s, String q "") <-> shift s <> caps s) /\
     (procedure HC_ACTION w key s = (s, String p "") <-> shift s = caps s)) /\
  (is_digit_key (vkCode key) = true ->
     (procedure HC_ACTION w key s = (s, String q "") <-> shift s = true) /\
     (procedure HC_ACTION w key s = (s, String p "") <-> shift s = false)).
Proof.
  intros H D W. rewrite (keydown_char_plain _ _ _ _ _ H D W).
  pose proof (key_chars_distinct _ _ _ H) as N.
  unfold caps_passed.
  split; intros G; rewrite G;
    destruct (shift s), (caps s); cbn [xorb];
    (split; split; intros E; congruence).
Qed.

Lemma xor_case_law_on_key_events_witness :
  let s := mkStatics false true true false false in
  (procedure HC_ACTION WM_KEYDOWN (key_of VK_OEM_2) s = (s, "/") <->
   shift s = caps s) /\
  (procedure HC_ACTION WM_KEYDOWN (key_of 48) s = (s, ")") <->
   shift s = true).
Proof.
  cbv zeta. split.
  - apply (proj1 (xor_case_law_on_key_events WM_KEYDOWN (key_of VK_OEM_2)
                    "/" "?" (mkStatics false true true false false)
                    eq_refl eq_refl eq_refl) eq_refl).
  - apply (proj2 (xor_case_law_on_key_events WM_KEYDOWN (key_of 48)
                    "0" ")" (mkStatics false true true false false)
                    eq_refl eq_refl eq_refl) eq_refl).
Defined.

(** C2, as stated, fails on a digit key: with caps-lock toggled on, shift
    not held and no decorating modifier, the key [1] (code 49) writes its
    primary character ["1"], not its secondary character ["!"]; the arm
    passes [false] where the claim expects the tracker's toggle. *)
Lemma digit_key_ignores_caps_lock :
  let s := mkStatics false false true false false in
  key_chars 49 = Some ("1"%char, "!"%char) /\
  decorated s = false /\ shift s = false /\ caps s = true /\
  procedure HC_ACTION WM_KEYDOWN (key_of 49) s = (s, "1") /\
  snd (procedure HC_ACTION WM_KEYDOWN (key_of 49) s) <> "!" /\
  caps_passed 49 s <> caps s.
Proof. cbv zeta. repeat split; try reflexivity; discriminate. Qed.

(** C2 (amended).  For every letter or punctuation key pressed while no
    decorating modifier is active, the caps-lock value used in character
    selection is the tracker's toggle, so with caps-lock on and shift not
    held the key yields its secondary character.  For a digit key the
    caps-lock value used is always [false]: the character is selected by
    shift alone. *)
Theorem effective_caps_lock w key p q s :
  key_chars (vkCode key) = Some (p, q) ->
  decorated s = false ->
  is_keydown w = true ->
  (is_digit_key (vkCode key) = false ->
     procedure HC_ACTION w key s =
       (s, String (if xorb (shift s) (caps s) then q else p) "") /\
     (caps s = true -> shift s = false ->
        procedure HC_ACTION w key s = (s, String q ""))) /\
  (is_digit_key (vkCode key) = true ->
     procedure HC_ACTION w key s =
       (s, String (if shift s then q else p) "")).
Proof.
  intros H D W. rewrite (keydown_char_plain _ _ _ _ _ H D W).
  unfold caps_passed. split; intros G; rewrite G.
  - split; [ reflexivity | ]. now intros -> ->.
  - now destruct (shift s).
Qed.

Lemma effective_caps_lock_witness :
  let s := mkStatics false false true false false in
  (procedure HC_ACTION WM_KEYDOWN (key_of VK_OEM_1) s = (s, ":") /\
   procedure HC_ACTION WM_KEYDOWN (key_of 65) s = (s, "A")) /\
  procedure HC_ACTION WM_KEYDOWN (key_of 49) s = (s, "1").
Proof.
  cbv zeta. split; [ split | ].
  - apply (effective_caps_lock WM_KEYDOWN (key_of VK_OEM_1) ";" ":"
             (mkStatics false false true false false));
      reflexivity.
  - apply (effective_caps_lock WM_KEYDOWN (key_of 65) "a" "A"
             (mkStatics false false true false false));
      reflexivity.
  - apply (effective_caps_lock WM_KEYDOWN (key_of 49) "1" "!"
             (mkStatics false false true false false));
      reflexivity.
Defined.

(** ** Decoration *)

Lemma keydown_char_decorated w key p q s :
  key_chars (vkCode key) = Some (p, q) ->
  decorated s = true ->
  is_keydown w = true ->
  procedure HC_ACTION w key s =
  (s, "<" ++ prefix_tokens (win s) (ctrl s) (alt s) ++
      String (if shift s then q else p) "" ++ ">").
Proof.
  intros H D W. rewrite (procedure_keydown_branch _ _ _ W).
  rewrite (keydown_char _ _ _ _ _ H). cbn [append].
  now rewrite (translate_decorated _ _ _ _ _ _ _ D).
Qed.

(** C3 (decoration suppresses caps-lock).  For every character-table key
    pressed while at least one of meta, control, alt is active, the text
    written is the translation computed with a caps-lock flag of [false],
    it is the same whatever the tracker's caps-lock toggle is, and it is
    wrapped between ["<"] and [">"]. *)
Theorem decoration_suppresses_caps_lock w key p q s :
  key_chars (vkCode key) = Some (p, q) ->
  decorated s = true ->
  is_keydown w = true ->
  procedure HC_ACTION w key s =
    (s, translate p q (win s) (shift s) false (ctrl s) (alt s)) /\
  (forall toggle,
     snd (procedure HC_ACTION w key
            (mkStatics (win s) (shift s) toggle (ctrl s) (alt s))) =
     snd (procedure HC_ACTION w key s)) /\
  snd (procedure HC_ACTION w key s) =
    "<" ++ prefix_tokens (win s) (ctrl s) (alt s) ++
    String (if shift s then q else p) "" ++ ">".
Proof.
  intros H D W. rewrite (keydown_char_decorated _ _ _ _ _ H D W).
  repeat split.
  - now rewrite (translate_decorated _ _ _ _ _ _ _ D).
  - intros toggle.
    now rewrite (keydown_char_decorated w key p q
                   (mkStatics (win s) (shift s) toggle (ctrl s) (alt s)) H D W).
Qed.

Lemma decoration_suppresses_caps_lock_witness :
  let s := mkStatics false false true true false in
  procedure HC_ACTION WM_KEYDOWN (key_of 67) s = (s, "<CTRL + c>").
Proof.
  cbv zeta.
  apply (decoration_suppresses_caps_lock WM_KEYDOWN (key_of 67) "c" "C"
           (mkStatics false false true true false));
    reflexivity.
Defined.

(** C4 (prefix order).  For every decorated character-table key press the
    text is ["<"], then ["WIN + "] if meta is active, then ["CTRL + "] if
    control is active, then ["ALT + "] if alt is active, then the
    character, then [">"]: shift adds no token, it only selects the
    character.  The sequence meta-down, control-down, [a]-down writes
    ["<WIN + CTRL + a>"]. *)
Theorem prefix_order w key p q s :
  key_chars (vkCode key) = Some (p, q) ->
  decorated s = true ->
  is_keydown w = true ->
  snd (procedure HC_ACTION w key s) =
    "<" ++ (if win s then "WIN + " else "") ++
           (if ctrl s then "CTRL + " else "") ++
           (if alt s then "ALT + " else "") ++
           String (if shift s then q else p) "" ++ ">" /\
  snd (deliver [key_down VK_LWIN; key_down VK_LCONTROL; key_down 65] initial) =
    "<WIN + CTRL + a>".
Proof.
  intros H D W. split; [ | reflexivity ].
  rewrite (keydown_char_decorated _ _ _ _ _ H D W). cbn [snd].
  unfold prefix_tokens. f_equal. now rewrite !append_assoc.
Qed.

Lemma prefix_order_witness :
  snd (procedure HC_ACTION WM_SYSKEYDOWN (key_of 65)
         (mkStatics true true true true true)) = "<WIN + CTRL + ALT + A>".
Proof.
  apply (prefix_order WM_SYSKEYDOWN (key_of 65) "a" "A"
           (mkStatics true true true true true));
    reflexivity.
Defined.

(** ** Modifier tracking *)

(** C5 (caps-lock is a toggle).  A key-down of the caps-lock key negates
    the [caps] flag, leaves the other four flags alone and writes nothing;
    two such key-downs in a row restore the flags they started from; a
    key-up of the caps-lock key changes no flag and writes nothing,
    whatever the hook code. *)
Theorem caps_lock_toggle key s :
  vkCode key = VK_CAPITAL ->
  (forall w, is_keydown w = true ->
     procedure HC_ACTION w key s =
       (mkStatics (win s) (shift s) (negb (caps s)) (ctrl s) (alt s), "")) /\
  (forall w w', is_keydown w = true -> is_keydown w' = true ->
     fst (procedure HC_ACTION w' key (fst (procedure HC_ACTION w key s))) = s) /\
  (forall code w, is_keyup w = true -> procedure code w key s = (s, "")).
Proof.
  intros K. repeat split.
  - intros w W. rewrite (procedure_keydown_branch _ _ _ W), K. reflexivity.
  - intros w w' W W'.
    rewrite (procedure_keydown_branch _ _ _ W), K.
    rewrite (procedure_keydown_branch _ _ _ W'), K.
    destruct s as [a b c d e]. cbn. now rewrite negb_involutive.
  - intros code w W. destruct (Z.eq_dec code HC_ACTION) as [-> | C].
    + rewrite (procedure_keyup_branch _ _ _ W), K. reflexivity.
    + now apply procedure_no_action.
Qed.

Lemma caps_lock_toggle_witness :
  fst (deliver [key_down VK_CAPITAL] initial) =
    mkStatics false false true false false /\
  fst (deliver [key_down VK_CAPITAL; key_down VK_CAPITAL] initial) = initial /\
  deliver [key_up VK_CAPITAL] initial = (initial, "").
Proof.
  destruct (caps_lock_toggle (key_of VK_CAPITAL) initial eq_refl)
    as (D & DD & U).
  split; [ | split ].
  - cbn [deliver key_down call_code call_wParam call_key].
    rewrite (D WM_KEYDOWN eq_refl). reflexivity.
  - cbn [deliver key_down call_code call_wParam call_key].
    pose proof (DD WM_KEYDOWN WM_KEYDOWN eq_refl eq_refl) as R.
    destruct (procedure HC_ACTION WM_KEYDOWN (key_of VK_CAPITAL) initial)
      as [s1 o1].
    cbn [fst] in R.
    destruct (procedure HC_ACTION WM_KEYDOWN (key_of VK_CAPITAL) s1)
      as [s2 o2].
    exact R.
  - cbn [deliver key_up call_code call_wParam call_key].
    rewrite (U HC_ACTION WM_KEYUP eq_refl). reflexivity.
Defined.

(** C6 (modifier symmetry).  For each of meta, shift, control and alt, a
    key-down of the left or of the right key sets the one shared flag and a
    key-up of the left or of the right key clears it, writing nothing; in
    particular, whichever of the two keys goes down and whichever goes up
    afterwards, the flag ends cleared: left-shift down then right-shift up
    leaves [shift] false. *)
Theorem left_right_interchangeable (m : Held) key s :
  vkCode key = left_key m \/ vkCode key = right_key m ->
  (forall w, is_keydown w = true ->
     procedure HC_ACTION w key s = (assign m true s, "")) /\
  (forall w, is_keyup w = true ->
     procedure HC_ACTION w key s = (assign m false s, "")) /\
  (forall w0 w key', is_keydown w0 = true -> is_keyup w = true ->
     vkCode key' = left_key m \/ vkCode key' = right_key m ->
     flag m (fst (procedure HC_ACTION w key'
                    (fst (procedure HC_ACTION w0 key s)))) = false) /\
  shift (fst (deliver [key_down VK_LSHIFT; key_up VK_RSHIFT] s)) = false.
Proof.
  intros K.
  assert (D : forall w, is_keydown w = true ->
                procedure HC_ACTION w key s = (assign m true s, "")).
  { intros w W. rewrite (procedure_keydown_branch _ _ _ W).
    destruct K as [-> | ->]; destruct m; reflexivity. }
  assert (U : forall w k t, is_keyup w = true ->
                vkCode k = left_key m \/ vkCode k = right_key m ->
                procedure HC_ACTION w k t = (assign m false t, "")).
  { intros w k t W E. rewrite (procedure_keyup_branch _ _ _ W).
    destruct E as [-> | ->]; destruct m; reflexivity. }
  split; [ exact D | ]. split; [ | split ].
  - intros w W. now apply U.
  - intros w0 w key' W0 W K'. rewrite (D w0 W0), (U _ _ _ W K').
    destruct m; reflexivity.
  - reflexivity.
Qed.

Lemma left_right_interchangeable_witness :
  procedure HC_ACTION WM_KEYDOWN (key_of VK_RCONTROL) initial =
    (mkStatics false false false true false, "") /\
  procedure HC_ACTION WM_KEYUP (key_of VK_LCONTROL)
    (mkStatics false false false true false) = (initial, "").
Proof.
  split.
  - apply (left_right_interchangeable Control (key_of VK_RCONTROL) initial);
      [ right | ]; reflexivity.
  - apply (left_right_interchangeable Control (key_of VK_LCONTROL)
             (mkStatics false false false true false));
      [ left | ]; reflexivity.
Defined.

(** ** Keys outside the tables *)

(** C7 (an unmapped code is silent).  Whatever the hook code and the
    message, an event whose key code is in neither table and is not a
    modifier writes the empty text and returns the flags it was given.
    [procedure] is a total function with no error result: there is nothing
    it could throw, log or signal. *)
Theorem unmapped_code_is_silent code w key s :
  key_chars (vkCode key) = None ->
  literal_label (vkCode key) = None ->
  is_modifier (vkCode key) = false ->
  procedure code w key s = (s, "").
Proof.
  intros C L M.
  destruct (procedure_cases code w key s) as [E | [E | E]]; rewrite E.
  - now apply keydown_unmapped.
  - now apply keyup_non_modifier.
  - reflexivity.
Qed.

Lemma unmapped_code_is_silent_witness :
  procedure HC_ACTION WM_KEYDOWN (key_of 0x70)
    (mkStatics true true true false true) =
  (mkStatics true true true false true, "").
Proof.
  apply (unmapped_code_is_silent HC_ACTION WM_KEYDOWN (key_of 0x70)
           (mkStatics true true true false true));
    reflexivity.
Defined.

(** ** Literal labels *)

(** C8 (literal labels).  A key-down of a literal-label key writes the
    fixed string of that key and nothing else, with the flags unchanged,
    whatever the five flags are: no case selection, no brackets added, no
    prefix token.  The sixteen keys and their strings are listed; the
    string of Return is its label followed by carriage return and line
    feed. *)
Theorem literal_label_is_fixed w key label s :
  literal_label (vkCode key) = Some label ->
  is_keydown w = true ->
  procedure HC_ACTION w key s = (s, label) /\
  map literal_label
    [VK_BACK; VK_TAB; VK_RETURN; VK_ESCAPE; VK_SPACE; VK_PRIOR; VK_NEXT;
     VK_HOME; VK_END; VK_LEFT; VK_UP; VK_RIGHT; VK_DOWN; VK_SNAPSHOT;
     VK_INSERT; VK_DELETE] =
    [Some "<BACKSPACE>"; Some "<TAB>";
     Some ("<RETURN>" ++ String CR (String LF "")); Some "<ESC>"; Some " ";
     Some "<PGDN>"; Some "<PGUP>"; Some "<HOME>"; Some "<END>";
     Some "<LEFT>"; Some "<UP>"; Some "<RIGHT>"; Some "<DOWN>";
     Some "<PRTSC>"; Some "<INS>"; Some "<DEL>"].
Proof.
  intros L W. split; [ | reflexivity ].
  rewrite (procedure_keydown_branch _ _ _ W).
  now rewrite (keydown_literal _ _ _ _ L).
Qed.

Lemma literal_label_is_fixed_witness :
  procedure HC_ACTION WM_KEYDOWN (key_of VK_RETURN)
    (mkStatics true true true true true) =
  (mkStatics true true true true true, "<RETURN>" ++ CRLF).
Proof.
  apply (literal_label_is_fixed WM_KEYDOWN (key_of VK_RETURN)
           ("<RETURN>" ++ CRLF) (mkStatics true true true true true));
    reflexivity.
Defined.

(** C10 (page keys).  A key-down of [VK_PRIOR], the Page-Up key, writes
    ["<PGDN>"] and a key-down of [VK_NEXT], the Page-Down key, writes
    ["<PGUP>"]. *)
Theorem page_key_labels w key s :
  is_keydown w = true ->
  (vkCode key = VK_PRIOR -> procedure HC_ACTION w key s = (s, "<PGDN>")) /\
  (vkCode key = VK_NEXT -> procedure HC_ACTION w key s = (s, "<PGUP>")).
Proof.
  intros W. rewrite (procedure_keydown_branch _ _ _ W).
  split; intros ->; reflexivity.
Qed.

Lemma page_key_labels_witness :
  procedure HC_ACTION WM_KEYDOWN (key_of VK_PRIOR) initial =
    (initial, "<PGDN>") /\
  procedure HC_ACTION WM_KEYDOWN (key_of VK_NEXT) initial =
    (initial, "<PGUP>").
Proof.
  split;
    [ apply (page_key_labels WM_KEYDOWN (key_of VK_PRIOR) initial)
    | apply (page_key_labels WM_KEYDOWN (key_of VK_NEXT) initial) ];
    reflexivity.
Defined.

(** ** Routing *)




(** * Further properties of the code *)

(** ** The text [translate] returns *)

Lemma append_nil_r (t : string) : t ++ "" = t.
Proof. induction t as [ | c t IH ]; cbn; [ reflexivity | now rewrite IH ]. Qed.

(** X1 (length of a translation).  [translate] returns exactly one
    character when none of [win], [ctrl], [alt] is set; otherwise it returns
    the two brackets, the character and six, seven and six characters for
    the tokens of [win], [ctrl] and [alt].  So the text is never empty and
    never longer than 22 characters. *)
Theorem translate_length primary secondary win shift caps ctrl alt :
  String.length (translate primary secondary win shift caps ctrl alt) =
    (if win || ctrl || alt
     then 3 + (if win then 6 else 0) + (if ctrl then 7 else 0)
            + (if alt then 6 else 0)
     else 1)%nat /\
  (1 <= String.length (translate primary secondary win shift caps ctrl alt)
     <= 22)%nat.
Proof.
  assert (E : String.length (translate primary secondary win shift caps ctrl alt) =
    (if win || ctrl || alt
     then 3 + (if win then 6 else 0) + (if ctrl then 7 else 0)
            + (if alt then 6 else 0)
     else 1)%nat).
  { unfold translate, push_back.
    destruct win, ctrl, alt, shift, caps; reflexivity. }
  split; [ exact E | ]. rewrite E.
  destruct win, ctrl, alt; cbn; lia.
Qed.

Lemma translate_reads_back
    p q win shift caps ctrl alt p' q' win' shift' caps' ctrl' alt' :
  translate p q win shift caps ctrl alt =
  translate p' q' win' shift' caps' ctrl' alt' ->
  win = win' /\ ctrl = ctrl' /\ alt = alt' /\
  (if xorb shift (if win || ctrl || alt then false else caps) then q else p) =
  (if xorb shift' (if win' || ctrl' || alt' then false else caps')
   then q' else p').
Proof.
  intros H. unfold translate, push_back in H.
  destruct win, ctrl, alt, win', ctrl', alt';
    cbn in H; try discriminate H;
    destruct shift, caps, shift', caps'; cbn in H |- *;
    repeat split; congruence.
Qed.

(** X2 (the decoration can be read back).  If two calls of [translate]
    return the same text, they were made with the same [win], [ctrl] and
    [alt], and they selected the same character. *)
Theorem translate_decoration_injective
    p q win shift caps ctrl alt p' q' win' shift' caps' ctrl' alt' :
  translate p q win shift caps ctrl alt =
  translate p' q' win' shift' caps' ctrl' alt' ->
  win = win' /\ ctrl = ctrl' /\ alt = alt' /\
  (if xorb shift (if win || ctrl || alt then false else caps) then q else p) =
  (if xorb shift' (if win' || ctrl' || alt' then false else caps')
   then q' else p').
Proof. apply translate_reads_back. Qed.

Lemma translate_decoration_injective_witness :
  translate "c" "C" false true false true true =
  translate "x" "C" false true true true true /\
  "C"%char = "C"%char.
Proof.
  split; [ reflexivity | ].
  apply (translate_decoration_injective
           "c" "C" false true false true true
           "x" "C" false true true true true).
  reflexivity.
Defined.

(** ** What one call of the hook can do *)

Lemma translate_not_empty p q win shift caps ctrl alt :
  translate p q win shift caps ctrl alt <> "".
Proof.
  unfold translate, push_back.
  destruct win, ctrl, alt, shift, caps; cbn; discriminate.
Qed.

Lemma literal_label_not_empty vk label :
  literal_label vk = Some label -> label <> "".
Proof.
  intros H. split_code vk; vm_compute in H; try discriminate H;
    injection H as <-; discriminate.
Qed.

(** The flags after a key-down: unchanged, [caps] negated, or one held
    flag set. *)
Lemma keydown_flags vk s log :
  fst (procedure_keydown vk s log) =
    (if Z.eqb vk VK_CAPITAL
     then mkStatics (win s) (shift s) (negb (caps s)) (ctrl s) (alt s)
     else if is_key Meta vk then assign Meta true s
     else if is_key Shift vk then assign Shift true s
     else if is_key Control vk then assign Control true s
     else if is_key Alt vk then assign Alt true s
     else s).
Proof. split_code vk; reflexivity. Qed.

(** The flags after a key-up: unchanged or one held flag cleared. *)
Lemma keyup_flags vk s log :
  fst (procedure_keyup vk s log) =
    (if is_key Meta vk then assign Meta false s
     else if is_key Shift vk then assign Shift false s
     else if is_key Control vk then assign Control false s
     else if is_key Alt vk then assign Alt false s
     else s).
Proof. split_code vk; reflexivity. Qed.

(** A call for a key that is not a modifier returns the flags it was
    given. *)
Lemma non_modifier_keeps_flags code w key s :
  is_modifier (vkCode key) = false -> fst (procedure code w key s) = s.
Proof.
  intros M.
  destruct (procedure_cases code w key s) as [E | [E | E]]; rewrite E.
  - destruct (key_chars (vkCode key)) as [[p q] | ] eqn:K;
      [ now rewrite (keydown_char _ _ _ _ _ K) | ].
    destruct (literal_label (vkCode key)) as [label | ] eqn:L;
      [ now rewrite (keydown_literal _ _ _ _ L) | ].
    now rewrite (keydown_unmapped _ _ _ K L M).
  - now rewrite (keyup_non_modifier _ _ _ M).
  - reflexivity.
Qed.

(** X3 (one flag per event).  A call of [procedure] returns the flags it
    was given, or those flags with [caps] negated, or those flags with one
    of [win], [shift], [ctrl], [alt] assigned: never two flags change in one
    call.  When the flags do change, the call was a key message with code
    [HC_ACTION] for a modifier key, and it wrote no text. *)
Theorem one_flag_per_event code w key s :
  (fst (procedure code w key s) = s \/
   fst (procedure code w key s) =
     mkStatics (win s) (shift s) (negb (caps s)) (ctrl s) (alt s) \/
   exists m b, fst (procedure code w key s) = assign m b s) /\
  (fst (procedure code w key s) <> s ->
   code = HC_ACTION /\ (is_keydown w = true \/ is_keyup w = true) /\
   is_modifier (vkCode key) = true /\
   snd (procedure code w key s) = "").
Proof.
  destruct (Z.eq_dec code HC_ACTION) as [-> | C];
    [ | rewrite (procedure_no_action _ _ _ _ C); split;
        [ now left | intros N; now contradiction N ] ].
  destruct (is_keydown w) eqn:D.
  - rewrite (procedure_keydown_branch _ _ _ D).
    pose proof (keydown_flags (vkCode key) s "") as F.
    split.
    + rewrite F.
      repeat match goal with
             | |- context [if ?c then _ else _] => destruct c
             end; eauto.
    + intros N.
      destruct (is_modifier (vkCode key)) eqn:M.
      * repeat split; auto. now apply keydown_modifier_silent.
      * contradiction N.
        destruct (key_chars (vkCode key)) as [[p q] | ] eqn:K;
          [ now rewrite (keydown_char _ _ _ _ _ K) | ].
        destruct (literal_label (vkCode key)) as [label | ] eqn:L;
          [ now rewrite (keydown_literal _ _ _ _ L) | ].
        now rewrite (keydown_unmapped _ _ _ K L M).
  - destruct (is_keyup w) eqn:U.
    + rewrite (procedure_keyup_branch _ _ _ U).
      pose proof (keyup_flags (vkCode key) s "") as F.
      split.
      * rewrite F.
        repeat match goal with
               | |- context [if ?c then _ else _] => destruct c
               end; eauto.
      * intros N. repeat split; auto; [ | apply keyup_silent ].
        destruct (is_modifier (vkCode key)) eqn:M; [ reflexivity | ].
        contradiction N.
        now rewrite (keyup_non_modifier _ _ _ M).
    + rewrite (procedure_other_message _ _ _ _ D U).
      split; [ now left | intros N; now contradiction N ].
Qed.

Lemma one_flag_per_event_witness :
  fst (procedure HC_ACTION WM_KEYDOWN (key_of VK_RMENU) initial) <> initial /\
  is_modifier (vkCode (key_of VK_RMENU)) = true /\
  snd (procedure HC_ACTION WM_KEYDOWN (key_of VK_RMENU) initial) = "".
Proof.
  assert (N : fst (procedure HC_ACTION WM_KEYDOWN (key_of VK_RMENU) initial)
              <> initial) by discriminate.
  split; [ exact N | ].
  apply (proj2 (one_flag_per_event HC_ACTION WM_KEYDOWN (key_of VK_RMENU)
                  initial) N).
Defined.

(** X4 (when text is written).  A call of [procedure] writes a non-empty
    text exactly when its code is [HC_ACTION], its message is a key-down
    message and the key is in the character table or in the literal-label
    table.  Key-up messages, other messages, other codes, modifier keys and
    unmapped keys write nothing. *)
Theorem text_only_on_table_key_down code w key s :
  snd (procedure code w key s) <> "" <->
  code = HC_ACTION /\ is_keydown w = true /\
  (key_chars (vkCode key) <> None \/ literal_label (vkCode key) <> None).
Proof.
  split.
  - intros N.
    destruct (Z.eq_dec code HC_ACTION) as [-> | C];
      [ | rewrite (procedure_no_action _ _ _ _ C) in N; now contradiction N ].
    destruct (is_keydown w) eqn:D.
    + repeat split.
      rewrite (procedure_keydown_branch _ _ _ D) in N.
      destruct (key_chars (vkCode key)) eqn:K; [ left; discriminate | ].
      destruct (literal_label (vkCode key)) eqn:L; [ right; discriminate | ].
      destruct (is_modifier (vkCode key)) eqn:M.
      * now rewrite (keydown_modifier_silent _ _ _ M) in N.
      * now rewrite (keydown_unmapped _ _ _ K L M) in N.
    + destruct (is_keyup w) eqn:U.
      * rewrite (procedure_keyup_branch _ _ _ U), keyup_silent in N.
        now contradiction N.
      * rewrite (procedure_other_message _ _ _ _ D U) in N.
        now contradiction N.
  - intros (-> & D & T). rewrite (procedure_keydown_branch _ _ _ D).
    destruct (key_chars (vkCode key)) as [[p q] | ] eqn:K.
    + rewrite (keydown_char _ _ _ _ _ K). cbn [snd append].
      apply translate_not_empty.
    + destruct (literal_label (vkCode key)) as [label | ] eqn:L.
      * rewrite (keydown_literal _ _ _ _ L). cbn [snd append].
        now apply (literal_label_not_empty _ _ L).
      * destruct T as [T | T]; now contradiction T.
Qed.

Lemma text_only_on_table_key_down_witness :
  snd (procedure HC_ACTION WM_SYSKEYDOWN (key_of VK_TAB) initial) <> "".
Proof.
  apply (text_only_on_table_key_down HC_ACTION WM_SYSKEYDOWN (key_of VK_TAB)
           initial).
  repeat split. right. discriminate.
Defined.

(** ** The flags after a stream of events *)

Lemma deliver_cons c rest s :
  deliver (c :: rest) s =
  (fst (deliver rest (fst (call c s))),
   snd (call c s) ++ snd (deliver rest (fst (call c s)))).
Proof.
  unfold call. cbn [deliver].
  destruct (procedure (call_code c) (call_wParam c) (call_key c) s) as [s1 o1].
  cbn [fst snd]. now destruct (deliver rest s1).
Qed.

Lemma deliver_app a b s :
  deliver (a ++ b) s =
  (fst (deliver b (fst (deliver a s))),
   snd (deliver a s) ++ snd (deliver b (fst (deliver a s)))).
Proof.
  revert s. induction a as [ | c a IH ]; intros s.
  - cbn. now destruct (deliver b s).
  - rewrite <- app_comm_cons, !deliver_cons, IH. cbn [fst snd].
    now rewrite append_assoc.
Qed.

Lemma call_follow m c s : flag m (fst (call c s)) = follow m (flag m s) c.
Proof.
  destruct c as [code w key]. unfold call, follow, held_event.
  cbn [call_code call_wParam call_key].
  destruct (Z.eqb_spec code HC_ACTION) as [-> | C];
    [ | now rewrite (procedure_no_action _ _ _ _ C) ].
  cbn [andb].
  destruct (is_keydown w) eqn:D.
  - rewrite (procedure_keydown_branch _ _ _ D).
    destruct s, m; split_code (vkCode key); reflexivity.
  - destruct (is_keyup w) eqn:U.
    + rewrite (procedure_keyup_branch _ _ _ U).
      destruct s, m; split_code (vkCode key); reflexivity.
    + rewrite (procedure_other_message _ _ _ _ D U).
      now destruct (is_key m (vkCode key)).
Qed.

(** X5 (a held flag follows its own keys).  After any stream of calls, each
    of [win], [shift], [ctrl], [alt] has the value given by the most recent
    press or release of its left or right key in the stream, and the value
    it started with when the stream has none; which of the two keys was
    pressed or released plays no part.  In particular the flag is clear
    after a stream ending in a release of either key, whatever is still
    held. *)
Theorem held_flag_follows_its_keys (m : Held) calls s :
  flag m (fst (deliver calls s)) = fold_left (follow m) calls (flag m s) /\
  (forall c pressed, held_event m c = Some pressed ->
     flag m (fst (deliver (calls ++ [c]) s)) = pressed).
Proof.
  assert (T : forall l t,
            flag m (fst (deliver l t)) = fold_left (follow m) l (flag m t)).
  { induction l as [ | c l IH ]; intros t; [ reflexivity | ].
    rewrite deliver_cons. cbn [fst fold_left].
    now rewrite IH, call_follow. }
  split; [ apply T | ].
  intros c pressed E. rewrite T, fold_left_app. cbn [fold_left].
  unfold follow at 1. now rewrite E.
Qed.

Lemma held_flag_follows_its_keys_witness :
  shift (fst (deliver [key_down VK_LSHIFT; key_down VK_RSHIFT;
                       key_up VK_RSHIFT] initial)) = false.
Proof.
  apply (proj2 (held_flag_follows_its_keys Shift
                  [key_down VK_LSHIFT; key_down VK_RSHIFT] initial)
           (key_up VK_RSHIFT) false).
  reflexivity.
Defined.

Lemma call_caps c s :
  caps (fst (call c s)) = xorb (caps s) (is_caps_down c).
Proof.
  destruct c as [code w key]. unfold call, is_caps_down.
  cbn [call_code call_wParam call_key].
  destruct (Z.eqb_spec code HC_ACTION) as [-> | C];
    [ | rewrite (procedure_no_action _ _ _ _ C); cbn;
        now rewrite xorb_false_r ].
  cbn [andb].
  destruct (is_keydown w) eqn:D.
  - rewrite (procedure_keydown_branch _ _ _ D).
    destruct s as [a b [ | ] d e]; split_code (vkCode key); reflexivity.
  - cbn [andb]. rewrite xorb_false_r.
    destruct (is_keyup w) eqn:U.
    + rewrite (procedure_keyup_branch _ _ _ U).
      destruct s; split_code (vkCode key); reflexivity.
    + now rewrite (procedure_other_message _ _ _ _ D U).
Qed.

(** X6 (caps-lock counts key-downs).  After any stream of calls the [caps]
    flag is its starting value, negated when the stream holds an odd number
    of caps-lock key-downs.  Every key-down counts, so the repeated
    key-downs of a key kept pressed flip the flag again each time. *)
Theorem caps_counts_key_downs calls s :
  caps (fst (deliver calls s)) =
  xorb (caps s) (Nat.odd (List.length (filter is_caps_down calls))).
Proof.
  revert s. induction calls as [ | c calls IH ]; intros s.
  - cbn. now rewrite xorb_false_r.
  - rewrite deliver_cons. cbn [fst filter]. rewrite IH, call_caps.
    destruct (is_caps_down c).
    + cbn [List.length]. rewrite Nat.odd_succ, <- Nat.negb_odd.
      now destruct (caps s), (Nat.odd (List.length (filter is_caps_down calls))).
    + now rewrite xorb_false_r.
Qed.

(** X7 (a run without modifier keys).  A stream of calls none of which
    carries a modifier key leaves the flags as they were, and what it
    writes is the texts of its calls, each computed under those same flags,
    one after the other. *)
Theorem run_without_modifiers calls s :
  forallb (fun c => negb (on_modifier c)) calls = true ->
  fst (deliver calls s) = s /\
  snd (deliver calls s) = String.concat "" (map (fun c => snd (call c s)) calls).
Proof.
  induction calls as [ | c calls IH ]; intros A; [ now split | ].
  cbn [forallb] in A. apply andb_prop in A as [M A].
  apply negb_true_iff in M. unfold on_modifier in M.
  rewrite deliver_cons. cbn [fst snd map].
  assert (F : fst (call c s) = s)
    by (unfold call; now apply non_modifier_keeps_flags).
  rewrite F. destruct (IH A) as [-> ->]. split; [ reflexivity | ].
  destruct calls as [ | d calls ]; [ apply append_nil_r | reflexivity ].
Qed.

Lemma run_without_modifiers_witness :
  deliver [key_down 72; key_up 72; key_down 73; key_down VK_RETURN]
    (mkStatics false true false false false) =
  (mkStatics false true false false false, "HI<RETURN>" ++ CRLF).
Proof.
  pose proof (run_without_modifiers
                [key_down 72; key_up 72; key_down 73; key_down VK_RETURN]
                (mkStatics false true false false false) eq_refl) as [F T].
  destruct (deliver [key_down 72; key_up 72; key_down 73; key_down VK_RETURN]
              (mkStatics false true false false false)) as [s1 o1].
  cbn [fst snd] in F, T. rewrite F, T. reflexivity.
Defined.

(** ** The character table *)

Lemma letter_chars vk :
  65 <= vk <= 90 ->
  key_chars vk =
    Some (ascii_of_N (Z.to_N (vk + 32)), ascii_of_N (Z.to_N vk)) /\
  is_digit_key vk = false.
Proof.
  intros R.
  assert (E : vk = 65 + Z.of_nat (Z.to_nat (vk - 65))) by lia.
  assert (B : (Z.to_nat (vk - 65) < 26)%nat) by lia.
  revert E B. generalize (Z.to_nat (vk - 65)) as n. intros n -> B.
  do 26 (destruct n as [ | n ]; [ split; reflexivity | ]). lia.
Qed.

Lemma digit_chars vk :
  48 <= vk <= 57 ->
  (exists q, key_chars vk = Some (ascii_of_N (Z.to_N vk), q)) /\
  is_digit_key vk = true.
Proof.
  intros R.
  assert (E : vk = 48 + Z.of_nat (Z.to_nat (vk - 48))) by lia.
  assert (B : (Z.to_nat (vk - 48) < 10)%nat) by lia.
  revert E B. generalize (Z.to_nat (vk - 48)) as n. intros n -> B.
  do 10 (destruct n as [ | n ]; [ split; [ eexists | ]; reflexivity | ]). lia.
Qed.

(** X8 (letters and digits are ASCII).  Pressed with no decorating
    modifier, a key with a code from 65 to 90 writes the character whose
    ASCII code is the key code (the capital letter) when exactly one of
    shift and caps-lock is on, and the character 32 places further (the
    small letter) otherwise.  A key with a code from 48 to 57 pressed
    without shift writes the character whose ASCII code is the key code
    (the digit), whatever caps-lock is. *)
Theorem letters_and_digits_are_ascii w key s :
  decorated s = false ->
  is_keydown w = true ->
  (65 <= vkCode key <= 90 ->
     procedure HC_ACTION w key s =
       (s, String (ascii_of_N (Z.to_N (if xorb (shift s) (caps s)
                                       then vkCode key
                                       else vkCode key + 32))) "")) /\
  (48 <= vkCode key <= 57 -> shift s = false ->
     procedure HC_ACTION w key s =
       (s, String (ascii_of_N (Z.to_N (vkCode key))) "")).
Proof.
  intros D W. split.
  - intros R. destruct (letter_chars _ R) as [K G].
    rewrite (keydown_char_plain _ _ _ _ _ K D W).
    unfold caps_passed. rewrite G.
    now destruct (xorb (shift s) (caps s)).
  - intros R S. destruct (digit_chars _ R) as [[q K] G].
    rewrite (keydown_char_plain _ _ _ _ _ K D W).
    unfold caps_passed. now rewrite G, S.
Qed.

Lemma letters_and_digits_are_ascii_witness :
  procedure HC_ACTION WM_KEYDOWN (key_of 81)
    (mkStatics false false true false false) =
    (mkStatics false false true false false, "Q") /\
  procedure HC_ACTION WM_KEYDOWN (key_of 55)
    (mkStatics false false true false false) =
    (mkStatics false false true false false, "7").
Proof.
  split.
  - apply (proj1 (letters_and_digits_are_ascii WM_KEYDOWN (key_of 81)
                    (mkStatics false false true false false)
                    eq_refl eq_refl)).
    cbn; lia.
  - apply (proj2 (letters_and_digits_are_ascii WM_KEYDOWN (key_of 55)
                    (mkStatics false false true false false)
                    eq_refl eq_refl));
      [ cbn; lia | reflexivity ].
Defined.

Lemma char_key_of_entry vk p q :
  key_chars vk = Some (p, q) ->
  char_key p = Some (vk, false) /\ char_key q = Some (vk, true).
Proof.
  intros H. split_code vk; vm_compute in H; try discriminate H;
    injection H as <- <-; split; vm_compute; reflexivity.
Qed.

(** X9 (the text names the key).  If two key-downs of character-table
    keys write the same text, under any flags, then they are key-downs of
    the same key code, with the same [win], [ctrl] and [alt], and with the
    same choice between the primary and the secondary character: no two
    entries of the table share a character. *)
Theorem written_text_names_the_key w key s w' key' s' :
  key_chars (vkCode key) <> None ->
  key_chars (vkCode key') <> None ->
  is_keydown w = true ->
  is_keydown w' = true ->
  snd (procedure HC_ACTION w key s) = snd (procedure HC_ACTION w' key' s') ->
  vkCode key = vkCode key' /\
  win s = win s' /\ ctrl s = ctrl s' /\ alt s = alt s' /\
  xorb (shift s) (if decorated s then false else caps_passed (vkCode key) s) =
  xorb (shift s') (if decorated s' then false else caps_passed (vkCode key') s').
Proof.
  intros K K' W W'.
  destruct (key_chars (vkCode key)) as [[p q] | ] eqn:E; [ | now contradiction K ].
  destruct (key_chars (vkCode key')) as [[p' q'] | ] eqn:E';
    [ | now contradiction K' ].
  rewrite (procedure_keydown_branch _ _ _ W), (keydown_char _ _ _ _ _ E).
  rewrite (procedure_keydown_branch _ _ _ W'), (keydown_char _ _ _ _ _ E').
  cbn [snd append]. intros T.
  apply translate_reads_back in T as (A & B & C & S).
  fold (decorated s) in S. fold (decorated s') in S.
  destruct (char_key_of_entry _ _ _ E) as [P Q].
  destruct (char_key_of_entry _ _ _ E') as [P' Q'].
  repeat split; try assumption.
  - destruct (xorb (shift s) _), (xorb (shift s') _); congruence.
  - destruct (xorb (shift s) _), (xorb (shift s') _); congruence.
Qed.

Lemma written_text_names_the_key_witness :
  vkCode (key_of VK_OEM_COMMA) = vkCode (mkKey VK_OEM_COMMA 51 0 7 0) /\
  xorb true false = xorb false true.
Proof.
  pose proof (written_text_names_the_key
                WM_KEYDOWN (key_of VK_OEM_COMMA)
                (mkStatics false true false false false)
                WM_SYSKEYDOWN (mkKey VK_OEM_COMMA 51 0 7 0)
                (mkStatics false false true false false)) as H.
  destruct H as (A & _ & _ & _ & B);
    [ discriminate | discriminate | reflexivity | reflexivity | reflexivity | ].
  split; [ exact A | exact B ].
Defined.

(** X10 (every printable character can be written).  For every character
    with an ASCII code from 32 to 126 there is a key code and a value of
    shift such that a key-down of that key, with every other flag clear,
    writes exactly that character. *)
Theorem every_printable_character_is_written (c : ascii) :
  (32 <= nat_of_ascii c <= 126)%nat ->
  exists vk held,
    procedure HC_ACTION WM_KEYDOWN (key_of vk)
      (mkStatics false held false false false) =
    (mkStatics false held false false false, String c "").
Proof.
  intros R.
  destruct c as [b0 b1 b2 b3 b4 b5 b6 b7].
  destruct b0, b1, b2, b3, b4, b5, b6, b7;
    try (exfalso; vm_compute in R; lia);
    match goal with
    | |- exists vk held, _ = (_, String ?c _) =>
        let r := eval vm_compute in (char_key c) in
        match r with
        | Some (?vk, ?held) => exists vk, held; reflexivity
        | None => exists VK_SPACE, false; reflexivity
        end
    end.
Qed.

Lemma every_printable_character_is_written_witness :
  exists vk held,
    procedure HC_ACTION WM_KEYDOWN (key_of vk)
      (mkStatics false held false false false) =
    (mkStatics false held false false false, "~").
Proof.
  apply (every_printable_character_is_written "~"). cbn. lia.
Defined.

(** ** The size and the alphabet of what is written *)

Lemma translate_printable p q win shift caps ctrl alt :
  printable p = true -> printable q = true ->
  all_chars printable (translate p q win shift caps ctrl alt) = true.
Proof.
  intros P Q. unfold translate, push_back.
  destruct win, ctrl, alt, shift, caps; cbn; now rewrite ?P, ?Q.
Qed.

Lemma key_chars_printable vk p q :
  key_chars vk = Some (p, q) -> printable p = true /\ printable q = true.
Proof.
  intros H. split_code vk; vm_compute in H; try discriminate H;
    injection H as <- <-; split; reflexivity.
Qed.

Lemma literal_label_short_printable vk label :
  literal_label vk = Some label ->
  (String.length label <= 11)%nat /\ all_chars printable label = true.
Proof.
  intros H. split_code vk; vm_compute in H; try discriminate H;
    injection H as <-; (split; [ cbn; lia | reflexivity ]).
Qed.

(** X11 (what reaches the console).  Whatever the call, the text
    [procedure] writes has at most 22 characters, and each of them is a
    printable ASCII character (codes 32 to 126), a carriage return or a
    line feed. *)
Theorem written_text_is_short_and_printable code w key s :
  (String.length (snd (procedure code w key s)) <= 22)%nat /\
  all_chars printable (snd (procedure code w key s)) = true.
Proof.
  destruct (procedure_cases code w key s) as [E | [E | E]]; rewrite E.
  - destruct (key_chars (vkCode key)) as [[p q] | ] eqn:K.
    + rewrite (keydown_char _ _ _ _ _ K). cbn [snd append].
      destruct (key_chars_printable _ _ _ K) as [P Q]. split.
      * generalize (win s), (shift s), (caps_passed (vkCode key) s),
          (ctrl s), (alt s).
        intros a b c d e. unfold translate, push_back.
        destruct a, b, c, d, e; cbn; lia.
      * now apply translate_printable.
    + destruct (literal_label (vkCode key)) as [label | ] eqn:L.
      * rewrite (keydown_literal _ _ _ _ L). cbn [snd append].
        destruct (literal_label_short_printable _ _ L) as [B P].
        split; [ lia | exact P ].
      * destruct (is_modifier (vkCode key)) eqn:M.
        -- rewrite (keydown_modifier_silent _ _ _ M). cbn. split; [ lia | reflexivity ].
        -- rewrite (keydown_unmapped _ _ _ K L M). cbn. split; [ lia | reflexivity ].
  - rewrite keyup_silent. cbn. split; [ lia | reflexivity ].
  - cbn. split; [ lia | reflexivity ].
Qed.

(** ** The entry point *)

Lemma message_loop_stops answers k :
  forall n bound,
    (forall i, (n <= i < n + k)%nat -> fst (answers i) = 0) ->
    fst (answers (n + k)%nat) <> 0 ->
    (k < bound)%nat ->
    message_loop answers bound n =
    Some (flat_map (loop_turn answers) (seq n k) ++
          [GetMessageW 0 WM_KEYDOWN WM_SYSKEYUP])%list.
Proof.
  induction k as [ | k IH ]; intros n bound Zero Stop B.
  - destruct bound as [ | bound ]; [ lia | ]. cbn [message_loop].
    rewrite Nat.add_0_r in Stop.
    destruct (answers n) as [r m]. cbn [fst] in Stop.
    destruct (Z.eqb_spec r 0); [ contradiction | reflexivity ].
  - destruct bound as [ | bound ]; [ lia | ]. cbn [message_loop].
    assert (E : fst (answers n) = 0) by (apply Zero; lia).
    rewrite (IH (S n) bound).
    + cbn [seq flat_map].
      destruct (answers n) as [r m] eqn:A. cbn [fst] in E. subst r.
      replace (loop_turn answers n)
        with [GetMessageW 0 WM_KEYDOWN WM_SYSKEYUP;
              TranslateMessage m; DispatchMessageW m]
        by (unfold loop_turn; now rewrite A).
      reflexivity.
    + intros i R. apply Zero. lia.
    + replace (S n + k)%nat with (n + S k)%nat by lia. exact Stop.
    + lia.
Qed.

Lemma message_loop_runs_on answers :
  (forall i, fst (answers i) = 0) ->
  forall bound n, message_loop answers bound n = None.
Proof.
  intros Zero. induction bound as [ | bound IH ]; intros n; [ reflexivity | ].
  cbn [message_loop]. specialize (Zero n).
  destruct (answers n) as [r m]. cbn [fst] in Zero. subst r.
  now rewrite IH.
Qed.

(** X12 (the message loop ends at the first non-zero answer).  Suppose the
    first [k] calls of [GetMessageW] return 0 and the next one returns
    something else (a message was retrieved, or -1 for an error).  Then,
    with room for more than [k] calls, [wWinMain] returns [EXIT_SUCCESS]
    after these calls and no other: [AllocConsole], [SetWindowsHookExW] for
    a low-level keyboard hook, [k] turns of [GetMessageW],
    [TranslateMessage], [DispatchMessageW] on the message just stored, one
    last [GetMessageW], [UnhookWindowsHookEx] on the handle that
    [SetWindowsHookExW] returned, whatever it is, and [FreeConsole]. *)
Theorem wWinMain_ends_at_first_nonzero hook answers k bound :
  (forall i, (i < k)%nat -> fst (answers i) = 0) ->
  fst (answers k) <> 0 ->
  (k < bound)%nat ->
  wWinMain hook answers bound =
  Some (([AllocConsole; SetWindowsHookExW WH_KEYBOARD_LL 0 0] ++
         flat_map (loop_turn answers) (seq 0 k) ++
         [GetMessageW 0 WM_KEYDOWN WM_SYSKEYUP;
          UnhookWindowsHookEx hook; FreeConsole])%list,
        EXIT_SUCCESS).
Proof.
  intros Zero Stop B. unfold wWinMain.
  rewrite (message_loop_stops answers k 0 bound);
    [ | intros i R; apply Zero; lia | exact Stop | exact B ].
  now rewrite <- !app_assoc.
Qed.

Lemma wWinMain_ends_at_first_nonzero_witness :
  wWinMain 77 (fun _ => (1, mkMSG 0 WM_KEYDOWN 65 0 0 0 0)) 1 =
  Some ([AllocConsole; SetWindowsHookExW WH_KEYBOARD_LL 0 0;
         GetMessageW 0 WM_KEYDOWN WM_SYSKEYUP;
         UnhookWindowsHookEx 77; FreeConsole], EXIT_SUCCESS).
Proof.
  apply (wWinMain_ends_at_first_nonzero 77
           (fun _ => (1, mkMSG 0 WM_KEYDOWN 65 0 0 0 0)) 0 1).
  - intros i R. lia.
  - discriminate.
  - lia.
Defined.

(** X13 (the message loop runs while the answer is zero).  If every call
    of [GetMessageW] returns 0, [wWinMain] does not return, however many
    calls it is given room for: it reaches neither [UnhookWindowsHookEx]
    nor [FreeConsole]. *)
Theorem wWinMain_runs_while_zero hook answers bound :
  (forall i, fst (answers i) = 0) ->
  wWinMain hook answers bound = None.
Proof.
  intros Zero. unfold wWinMain.
  now rewrite (message_loop_runs_on answers Zero).
Qed.

Lemma wWinMain_runs_while_zero_witness :
  wWinMain 77 (fun _ => (0, mkMSG 0 0x12 0 0 0 0 0)) 1000 = None.
Proof.
  apply (wWinMain_runs_while_zero 77 (fun _ => (0, mkMSG 0 0x12 0 0 0 0 0))).
  reflexivity.
Defined.

(** ** Typing a text, and reading the console *)

Lemma type_char_writes c :
  typeable c = true ->
  deliver (type_char c) initial = (initial, String c "") /\
  forallb is_typing (type_char c) = true.
Proof.
  intros T. destruct c as [b0 b1 b2 b3 b4 b5 b6 b7].
  destruct b0, b1, b2, b3, b4, b5, b6, b7;
    try discriminate T; split; vm_compute; reflexivity.
Qed.

(** X14 (any printable text can be typed).  For every text made of
    characters with ASCII codes 32 to 126 there is a stream of key events,
    using only left shift, the space bar and character-table keys, that
    starts and ends with every flag clear and writes exactly that text.  So
    a text on the console that reads like a literal label or like a
    decorated key, such as ["<TAB>"], can be written without that key or
    modifier ever being pressed. *)
Theorem any_printable_text_can_be_typed (t : string) :
  all_chars typeable t = true ->
  deliver (type_text t) initial = (initial, t) /\
  forallb is_typing (type_text t) = true.
Proof.
  induction t as [ | c t IH ]; intros A; [ now split | ].
  cbn [all_chars] in A. apply andb_prop in A as [C A].
  destruct (type_char_writes c C) as [W P].
  destruct (IH A) as [W' P'].
  cbn [type_text]. split.
  - rewrite deliver_app, W. cbn [fst snd]. now rewrite W'.
  - rewrite forallb_app, P, P'. reflexivity.
Qed.

Lemma any_printable_text_can_be_typed_witness :
  deliver (type_text "<TAB>") initial = (initial, "<TAB>") /\
  existsb (fun c => Z.eqb (vkCode (call_key c)) VK_TAB) (type_text "<TAB>")
    = false.
Proof.
  split; [ | reflexivity ].
  apply (any_printable_text_can_be_typed "<TAB>"). reflexivity.
Defined.
